(** * The flip-open notebook widget: a shallow embedding of its controller

    The repository holds two variants of one [NotebookController] class:
    [src/script.js] (click zones, timers of 500/600 ms) and
    [src/unnamed/part_000] (open/prev/next buttons, timers of 1000 ms).
    Both are embedded below, method by method, over one state type that
    holds the controller's fields, the part of the document the methods
    touch, and the queue of callbacks handed to [setTimeout]. *)

From Stdlib Require Import ZArith String List Bool Lia DecimalString.
From stdpp Require Import base decidable option list gmap strings.

#[local] Set Warnings "-clear-no-such-hyp".

Local Open Scope string_scope.
Local Open Scope list_scope.
Local Open Scope Z_scope.

(** ** The document *)

(** A DOM element of the page stack: its [data-page] attribute, its
    [classList] (a set of tokens) and its inline [style.transform]. *)
Record element := Element {
  dataPage : option string;
  classList : gset string;
  transform : string
}.

Definition classList_add (c : string) (e : element) : element :=
  Element (dataPage e) ({[ c ]} ∪ classList e) (transform e).

Definition classList_remove (cs : list string) (e : element) : element :=
  Element (dataPage e) (classList e ∖ list_to_set cs) (transform e).

Definition classList_contains (c : string) (e : element) : bool :=
  bool_decide (c ∈ classList e).

Definition set_transform (v : string) (e : element) : element :=
  Element (dataPage e) (classList e) v.

(** The closures passed to [setTimeout].  A closure that captured an
    element ([currentPageElement], [pageToReturn]) carries the position
    of that node in the page stack. *)
Inductive callback :=
| OpenDone
| NextDone (el : nat)
| PrevStart (el : nat)
| PrevDone (el : nat).

(** ** The state

    The four class fields, the nodes found by [initializeElements] and the
    pending timers, oldest first, each with the delay it was given.
    [pageStack] lists the descendants of [#pageStack] in document order;
    [pages] is the node list [querySelectorAll('.page-right')], as
    positions in [pageStack].  [prevBtn] and [nextBtn] are the [disabled]
    flags of the two buttons that only the document of the button-based
    variant has. *)
Record state := State {
  currentPage : Z;
  totalPages : Z;
  isOpened : bool;
  isAnimating : bool;
  notebook : gset string;
  pageStack : list element;
  pages : list nat;
  currentPageSpan : string;
  totalPagesSpan : string;
  prevBtn : bool;
  nextBtn : bool;
  timers : list (Z * callback)
}.

Definition set_currentPage (v : Z) (s : state) : state :=
  State v (totalPages s) (isOpened s) (isAnimating s) (notebook s)
        (pageStack s) (pages s) (currentPageSpan s) (totalPagesSpan s)
        (prevBtn s) (nextBtn s) (timers s).

Definition set_isOpened (v : bool) (s : state) : state :=
  State (currentPage s) (totalPages s) v (isAnimating s) (notebook s)
        (pageStack s) (pages s) (currentPageSpan s) (totalPagesSpan s)
        (prevBtn s) (nextBtn s) (timers s).

Definition set_isAnimating (v : bool) (s : state) : state :=
  State (currentPage s) (totalPages s) (isOpened s) v (notebook s)
        (pageStack s) (pages s) (currentPageSpan s) (totalPagesSpan s)
        (prevBtn s) (nextBtn s) (timers s).

Definition set_notebook (v : gset string) (s : state) : state :=
  State (currentPage s) (totalPages s) (isOpened s) (isAnimating s) v
        (pageStack s) (pages s) (currentPageSpan s) (totalPagesSpan s)
        (prevBtn s) (nextBtn s) (timers s).

Definition set_pageStack (v : list element) (s : state) : state :=
  State (currentPage s) (totalPages s) (isOpened s) (isAnimating s)
        (notebook s) v (pages s) (currentPageSpan s) (totalPagesSpan s)
        (prevBtn s) (nextBtn s) (timers s).

Definition set_currentPageSpan (v : string) (s : state) : state :=
  State (currentPage s) (totalPages s) (isOpened s) (isAnimating s)
        (notebook s) (pageStack s) (pages s) v (totalPagesSpan s)
        (prevBtn s) (nextBtn s) (timers s).

Definition set_buttons (p n : bool) (s : state) : state :=
  State (currentPage s) (totalPages s) (isOpened s) (isAnimating s)
        (notebook s) (pageStack s) (pages s) (currentPageSpan s)
        (totalPagesSpan s) p n (timers s).

Definition set_timers (v : list (Z * callback)) (s : state) : state :=
  State (currentPage s) (totalPages s) (isOpened s) (isAnimating s)
        (notebook s) (pageStack s) (pages s) (currentPageSpan s)
        (totalPagesSpan s) (prevBtn s) (nextBtn s) v.

(** [setTimeout(cb, delay)]: the callback joins the pending timers. *)
Definition setTimeout (cb : callback) (delay : Z) (s : state) : state :=
  set_timers (timers s ++ [(delay, cb)]) s.

(** A method call on the element at position [el] of the page stack. *)
Definition on_element (el : nat) (f : element → element) (s : state) : state :=
  set_pageStack (alter f el (pageStack s)) s.

(** The string a number takes inside a template literal. *)
Definition string_of_Z (z : Z) : string := NilEmpty.string_of_int (Z.to_int z).

(** [pageStack.querySelector(`[data-page="${n}"]`)]: the first descendant,
    in document order, whose attribute is that string; [None] is [null]. *)
Definition querySelector_data_page (n : Z) (s : state) : option nat :=
  fst <$> list_find (λ e, dataPage e = Some (string_of_Z n)) (pageStack s).

(** [pageStack.querySelectorAll('.page-right')]. *)
Fixpoint querySelectorAll_page_right (i : nat) (l : list element) : list nat :=
  match l with
  | [] => []
  | e :: l' =>
      if classList_contains "page-right" e
      then i :: querySelectorAll_page_right (S i) l'
      else querySelectorAll_page_right (S i) l'
  end.

(** [for (const page of this.pages) body(page)]. *)
Definition for_pages (f : element → element) (s : state) : state :=
  fold_left (λ st el, on_element el f st) (pages s) s.

(** A document as the controller finds it: a page stack of four right-hand
    pages tagged 1 to 4 (the class comment reads [0: cover, 1-4: pages]). *)
Definition page_right (n : Z) : element :=
  Element (Some (string_of_Z n)) {[ "page-right" ]} "".

Definition book : list element :=
  [page_right 1; page_right 2; page_right 3; page_right 4].

(** The closure variables of the touch handlers: [null] is [None]. *)
Record touch := Touch { startX : option Z; startY : option Z }.

(** [!v] for a variable holding [null] or a number. *)
Definition falsy (v : option Z) : bool :=
  match v with
  | None => true
  | Some x => x =? 0
  end.

(** What a handler is given: the four requests a user can make, the
    firing of the [n]-th pending timer, and a window resize. *)
Inductive event :=
| Open
| Advance
| Retreat
| Fire (n : nat)
| Resize.

(** ** [src/script.js] *)
Module Script.

Definition updateDisplay (s : state) : state :=
  if currentPage s =? 0 then set_currentPageSpan "Cover" s
  else if totalPages s <? currentPage s then set_currentPageSpan "End" s
  else set_currentPageSpan ("Page " +:+ string_of_Z (currentPage s)) s.

(** The class fields and [initializeElements], on a document whose
    [#notebook] has the classes [nb] and whose page stack is [ps]. *)
Definition initializeElements (nb : gset string) (ps : list element) : state :=
  State 0 4 false false nb ps (querySelectorAll_page_right 0 ps)
        "" (string_of_Z 4) false false [].

(** [new NotebookController()]; [bindEvents] only registers handlers. *)
Definition NotebookController (nb : gset string) (ps : list element) : state :=
  updateDisplay (initializeElements nb ps).

Definition initializePageStates (s : state) : state :=
  for_pages (λ page, classList_remove ["turned"; "hidden"] (set_transform "" page)) s.

Definition openNotebook (s : state) : state :=
  if isAnimating s || isOpened s then s
  else
    let s := set_isAnimating true s in
    let s := set_isOpened true s in
    let s := set_currentPage 1 s in
    let s := set_notebook ({[ "opened" ]} ∪ notebook s) s in
    let s := initializePageStates s in
    setTimeout OpenDone 500 s.

Definition nextPage (s : state) : state :=
  if isAnimating s || (totalPages s <=? currentPage s) then s
  else
    let s := set_isAnimating true s in
    match querySelector_data_page (currentPage s) s with
    | Some currentPageElement =>
        let s := on_element currentPageElement (classList_add "turning") s in
        setTimeout (NextDone currentPageElement) 600 s
    | None => s
    end.

Definition previousPage (s : state) : state :=
  if isAnimating s || (currentPage s <=? 1) then s
  else
    let s := set_isAnimating true s in
    let s := set_currentPage (currentPage s - 1) s in
    match querySelector_data_page (currentPage s) s with
    | Some pageToReturn =>
        let s := on_element pageToReturn (classList_remove ["hidden"]) s in
        match classList_contains "turned" <$> pageStack s !! pageToReturn with
        | Some true =>
            let s := on_element pageToReturn (set_transform "rotateY(-180deg)") s in
            setTimeout (PrevStart pageToReturn) 50 s
        | _ =>
            let s := set_isAnimating false s in
            updateDisplay s
        end
    | None => s
    end.

(** The body of each closure handed to [setTimeout]. *)
Definition run_callback (cb : callback) (s : state) : state :=
  match cb with
  | OpenDone =>
      let s := set_isAnimating false s in
      updateDisplay s
  | NextDone currentPageElement =>
      let s := on_element currentPageElement (classList_remove ["turning"]) s in
      let s := on_element currentPageElement (classList_add "turned") s in
      let s := set_currentPage (currentPage s + 1) s in
      let s :=
        if totalPages s <? currentPage s then
          let s := on_element currentPageElement (classList_add "hidden") s in
          set_currentPage (totalPages s + 1) s
        else s in
      let s := set_isAnimating false s in
      updateDisplay s
  | PrevStart pageToReturn =>
      let s := on_element pageToReturn (classList_add "turning") s in
      let s := on_element pageToReturn (set_transform "") s in
      setTimeout (PrevDone pageToReturn) 600 s
  | PrevDone pageToReturn =>
      let s := on_element pageToReturn (classList_remove ["turning"; "turned"]) s in
      let s := set_isAnimating false s in
      updateDisplay s
  end.

Definition handleResize (s : state) : state :=
  if isAnimating s then
    let s := for_pages (λ page, set_transform "" (classList_remove ["turning"] page)) s in
    let s := set_isAnimating false s in
    updateDisplay s
  else s.

(** The runtime takes the [n]-th pending timer off the queue and runs
    its closure.  Any pending timer may be taken: the model does not
    order them by due time, so it allows every order the browser can
    produce. *)
Definition fire (n : nat) (s : state) : state :=
  match timers s !! n with
  | Some (_, cb) => run_callback cb (set_timers (delete n (timers s)) s)
  | None => s
  end.

Definition step (s : state) (e : event) : state :=
  match e with
  | Open => openNotebook s
  | Advance => nextPage s
  | Retreat => previousPage s
  | Fire n => fire n s
  | Resize => handleResize s
  end.

Definition run (evs : list event) (s : state) : state := fold_left step evs s.

(** The [keydown] listener. *)
Definition keydown (key : string) (s : state) : state :=
  if negb (isOpened s) || isAnimating s then s
  else if String.eqb key "ArrowLeft" || String.eqb key "ArrowUp" then previousPage s
  else if String.eqb key "ArrowRight" || String.eqb key "ArrowDown" then nextPage s
  else s.

(** The [click] listener of [#notebook].  [onControls] tells whether the
    target lies in [.nav-controls]; [clientX], [left] and [width] are the
    click abscissa and the notebook's bounding rectangle, and
    [clickX < width / 2] is written [2 * clickX < width]. *)
Definition notebook_click (onControls : bool) (clientX left width : Z)
    (s : state) : state :=
  if negb (isOpened s) && negb onControls then openNotebook s
  else if isOpened s && negb (isAnimating s) then
    let clickX := clientX - left in
    if negb onControls then
      if (2 * clickX <? width) && (1 <? currentPage s) then previousPage s
      else if (width <? 2 * clickX) && (currentPage s <? totalPages s) then nextPage s
      else s
    else s
  else s.

(** The [click] listener of each right-hand page. *)
Definition page_click (s : state) : state :=
  if negb (isOpened s) then s
  else if negb (isAnimating s) then nextPage s
  else s.

(** The [touchstart] and [touchend] listeners. *)
Definition touchstart (clientX clientY : Z) (t : touch) : touch :=
  Touch (Some clientX) (Some clientY).

Definition touchend (clientX clientY : Z) (ts : touch * state) : touch * state :=
  let '(t, s) := ts in
  if falsy (startX t) || falsy (startY t) then (t, s)
  else
    let diffX := default 0 (startX t) - clientX in
    let diffY := default 0 (startY t) - clientY in
    let s :=
      if (Z.abs diffY <? Z.abs diffX) && (50 <? Z.abs diffX) then
        if isOpened s && negb (isAnimating s) then
          if 0 <? diffX then nextPage s else previousPage s
        else s
      else s in
    (Touch None None, s).

End Script.

(** ** [src/unnamed/part_000] *)
Module Part000.


Definition updateDisplay (s : state) : state :=
  let s :=
    if currentPage s =? 0 then set_currentPageSpan "Cover" s
    else if totalPages s <? currentPage s then set_currentPageSpan "End" s
    else set_currentPageSpan ("Page " +:+ string_of_Z (currentPage s)) s in
  set_buttons (currentPage s <=? 1) (totalPages s <=? currentPage s) s.

(** The class fields and [initializeElements], on a document whose
    [#notebook] has the classes [nb] and whose page stack is [ps]. *)
Definition initializeElements (nb : gset string) (ps : list element) : state :=
  State 0 4 false false nb ps (querySelectorAll_page_right 0 ps)
        "" (string_of_Z 4) false false [].

(** [new NotebookController()]; [bindEvents] only registers handlers. *)
Definition NotebookController (nb : gset string) (ps : list element) : state :=
  updateDisplay (initializeElements nb ps).

Definition initializePageStates (s : state) : state :=
  for_pages (λ page, classList_remove ["turned"; "hidden"] (set_transform "" page)) s.

Definition openNotebook (s : state) : state :=
  if isAnimating s || isOpened s then s
  else
    let s := set_isAnimating true s in
    let s := set_isOpened true s in
    let s := set_currentPage 1 s in
    let s := set_notebook ({[ "opened" ]} ∪ notebook s) s in
    let s := initializePageStates s in
    setTimeout OpenDone 1000 s.

Definition nextPage (s : state) : state :=
  if isAnimating s || (totalPages s <=? currentPage s) then s
  else
    let s := set_isAnimating true s in
    match querySelector_data_page (currentPage s) s with
    | Some currentPageElement =>
        let s := on_element currentPageElement (classList_add "turning") s in
        setTimeout (NextDone currentPageElement) 1000 s
    | None => s
    end.

Definition previousPage (s : state) : state :=
  if isAnimating s || (currentPage s <=? 1) then s
  else
    let s := set_isAnimating true s in
    let s := set_currentPage (currentPage s - 1) s in
    match querySelector_data_page (currentPage s) s with
    | Some pageToReturn =>
        let s := on_element pageToReturn (classList_remove ["hidden"]) s in
        match classList_contains "turned" <$> pageStack s !! pageToReturn with
        | Some true =>
            let s := on_element pageToReturn (set_transform "rotateY(-180deg)") s in
            setTimeout (PrevStart pageToReturn) 50 s
        | _ =>
            let s := set_isAnimating false s in
            updateDisplay s
        end
    | None => s
    end.

(** The body of each closure handed to [setTimeout]. *)
Definition run_callback (cb : callback) (s : state) : state :=
  match cb with
  | OpenDone =>
      let s := set_isAnimating false s in
      updateDisplay s
  | NextDone currentPageElement =>
      let s := on_element currentPageElement (classList_remove ["turning"]) s in
      let s := on_element currentPageElement (classList_add "turned") s in
      let s := set_currentPage (currentPage s + 1) s in
      let s :=
        if totalPages s <? currentPage s then
          let s := on_element currentPageElement (classList_add "hidden") s in
          set_currentPage (totalPages s + 1) s
        else s in
      let s := set_isAnimating false s in
      updateDisplay s
  | PrevStart pageToReturn =>
      let s := on_element pageToReturn (classList_add "turning") s in
      let s := on_element pageToReturn (set_transform "") s in
      setTimeout (PrevDone pageToReturn) 1000 s
  | PrevDone pageToReturn =>
      let s := on_element pageToReturn (classList_remove ["turning"; "turned"]) s in
      let s := set_isAnimating false s in
      updateDisplay s
  end.

Definition handleResize (s : state) : state :=
  if isAnimating s then
    let s := for_pages (λ page, set_transform "" (classList_remove ["turning"] page)) s in
    let s := set_isAnimating false s in
    updateDisplay s
  else s.

(** The runtime takes the [n]-th pending timer off the queue and runs
    its closure.  Any pending timer may be taken: the model does not
    order them by due time, so it allows every order the browser can
    produce. *)
Definition fire (n : nat) (s : state) : state :=
  match timers s !! n with
  | Some (_, cb) => run_callback cb (set_timers (delete n (timers s)) s)
  | None => s
  end.

Definition step (s : state) (e : event) : state :=
  match e with
  | Open => openNotebook s
  | Advance => nextPage s
  | Retreat => previousPage s
  | Fire n => fire n s
  | Resize => handleResize s
  end.

Definition run (evs : list event) (s : state) : state := fold_left step evs s.

(** The [keydown] listener. *)
Definition keydown (key : string) (s : state) : state :=
  if negb (isOpened s) || isAnimating s then s
  else if String.eqb key "ArrowLeft" || String.eqb key "ArrowUp" then previousPage s
  else if String.eqb key "ArrowRight" || String.eqb key "ArrowDown" then nextPage s
  else s.

(** The [click] listener of [#notebook].  [onControls] tells whether the
    target lies in [.nav-controls], [.open-btn] or [.cover]; [clientX],
    [left] and [width] are the click abscissa and the notebook's bounding
    rectangle, and [clickX < width / 2] is written [2 * clickX < width]. *)
Definition notebook_click (onControls : bool) (clientX left width : Z)
    (s : state) : state :=
  if negb (isOpened s) || isAnimating s then s
  else
    let clickX := clientX - left in
    if negb onControls then
      if (2 * clickX <? width) && (1 <? currentPage s) then previousPage s
      else if (width <? 2 * clickX) && (currentPage s <? totalPages s) then nextPage s
      else s
    else s.

(** The [click] listeners of the open button, the cover and the two
    navigation buttons. *)
Definition openBtn_click (s : state) : state := openNotebook s.

Definition cover_click (s : state) : state :=
  if negb (isOpened s) then openNotebook s else s.

Definition prevBtn_click (s : state) : state := previousPage s.

Definition nextBtn_click (s : state) : state := nextPage s.

(** The [touchstart] and [touchend] listeners. *)
Definition touchstart (clientX clientY : Z) (t : touch) : touch :=
  Touch (Some clientX) (Some clientY).

Definition touchend (clientX clientY : Z) (ts : touch * state) : touch * state :=
  let '(t, s) := ts in
  if falsy (startX t) || falsy (startY t) then (t, s)
  else
    let diffX := default 0 (startX t) - clientX in
    let diffY := default 0 (startY t) - clientY in
    let s :=
      if (Z.abs diffY <? Z.abs diffX) && (50 <? Z.abs diffX) then
        if isOpened s && negb (isAnimating s) then
          if 0 <? diffX then nextPage s else previousPage s
        else s
      else s in
    (Touch None None, s).

End Part000.

(** ** Vocabulary of the statements *)

(** The controller's own fields. *)
Definition controller (s : state) : Z * Z * bool * bool :=
  (currentPage s, totalPages s, isOpened s, isAnimating s).

(** The presentation state of a page that has not been turned: none of
    the three classes and no inline transform. *)
Definition initial_presentation (e : element) : Prop :=
  ("turning" ∉ classList e) ∧ ("turned" ∉ classList e)
  ∧ ("hidden" ∉ classList e) ∧ transform e = "".

(** The sentence of the specification on [advance]: outside the states
    that are opened, not animating and below the last page, the call
    changes nothing. *)
Definition advance_noop_unless_opened (s : state) : Prop :=
  ¬ (isOpened s = true ∧ isAnimating s = false ∧ currentPage s < totalPages s) →
  Script.nextPage s = s.

(** The range of the page counter. *)
Definition in_range (s : state) : Prop :=
  0 ≤ totalPages s ∧ 0 ≤ currentPage s ≤ totalPages s + 1.

(** The events of a trace without window resizes. *)
Definition request (e : event) : bool :=
  match e with
  | Resize => false
  | _ => true
  end.

(** Either no timer is pending, or the lock is held and exactly one is. *)
Definition single_flight (s : state) : Prop :=
  timers s = [] ∨ (isAnimating s = true ∧ ∃ t, timers s = [t]).

(** The change of [currentPage] each event is due: an accepted
    [openNotebook] moves it from the cover to page 1, an accepted
    [previousPage] lowers it at once, an accepted [nextPage] raises it
    when its timer fires, and nothing else moves it. *)
Definition expected_change (s : state) (e : event) : Z :=
  match e with
  | Open => if isAnimating s || isOpened s then 0 else 1
  | Advance => 0
  | Retreat => if isAnimating s || (currentPage s <=? 1) then 0 else -1
  | Fire n =>
      match timers s !! n with
      | Some (_, NextDone _) => 1
      | _ => 0
      end
  | Resize => 0
  end.

(** What holds along a trace without resizes on a document whose page
    stack has no element tagged 0: a closed notebook shows the cover with
    nothing pending, and a pending [nextPage] completion finds
    [currentPage] below [totalPages]. *)
Definition unit_inv (s : state) : Prop :=
  1 ≤ totalPages s
  ∧ 0 ≤ currentPage s ≤ totalPages s
  ∧ (isOpened s = false → currentPage s = 0 ∧ timers s = [])
  ∧ (timers s = []
     ∨ (isAnimating s = true
        ∧ ∃ d cb, timers s = [(d, cb)]
            ∧ ∀ el, cb = NextDone el → currentPage s < totalPages s))
  ∧ querySelector_data_page 0 s = None.

(** A page stack whose first page is missing. *)
Definition torn_book : list element := [page_right 2; page_right 3; page_right 4].

(** Everything in a state but the delays of the pending timers and the
    [disabled] flags of the two buttons. *)
Definition core (s : state) :=
  (controller s, notebook s, pageStack s, pages s,
   currentPageSpan s, totalPagesSpan s, (timers s).*2).

(** * Guards *)

Lemma openNotebook_guard s :
  isAnimating s = true ∨ isOpened s = true → Script.openNotebook s = s.
Proof.
  unfold Script.openNotebook. intros [-> | ->]; [done|].
  by rewrite orb_true_r.
Qed.

Lemma nextPage_guard s :
  isAnimating s = true ∨ totalPages s ≤ currentPage s → Script.nextPage s = s.
Proof.
  unfold Script.nextPage. intros [-> | H]; [done|].
  apply Z.leb_le in H. rewrite H. by rewrite orb_true_r.
Qed.

Lemma previousPage_guard s :
  isAnimating s = true ∨ currentPage s ≤ 1 → Script.previousPage s = s.
Proof.
  unfold Script.previousPage. intros [-> | H]; [done|].
  apply Z.leb_le in H. rewrite H. by rewrite orb_true_r.
Qed.

Lemma part000_openNotebook_guard s :
  isAnimating s = true ∨ isOpened s = true → Part000.openNotebook s = s.
Proof.
  unfold Part000.openNotebook. intros [-> | ->]; [done|].
  by rewrite orb_true_r.
Qed.

Lemma part000_nextPage_guard s :
  isAnimating s = true ∨ totalPages s ≤ currentPage s → Part000.nextPage s = s.
Proof.
  unfold Part000.nextPage. intros [-> | H]; [done|].
  apply Z.leb_le in H. rewrite H. by rewrite orb_true_r.
Qed.

Lemma part000_previousPage_guard s :
  isAnimating s = true ∨ currentPage s ≤ 1 → Part000.previousPage s = s.
Proof.
  unfold Part000.previousPage. intros [-> | H]; [done|].
  apply Z.leb_le in H. rewrite H. by rewrite orb_true_r.
Qed.

(** [nextPage] takes the lock whenever its guard lets it through,
    whatever [querySelector] then returns. *)
Lemma nextPage_takes_lock s :
  isAnimating s = false → currentPage s < totalPages s →
  isAnimating (Script.nextPage s) = true.
Proof.
  intros Ha Hlt. unfold Script.nextPage. rewrite Ha.
  apply Z.leb_gt in Hlt. rewrite Hlt. simpl.
  by destruct (querySelector_data_page _ _).
Qed.

Lemma part000_nextPage_takes_lock s :
  isAnimating s = false → currentPage s < totalPages s →
  isAnimating (Part000.nextPage s) = true.
Proof.
  intros Ha Hlt. unfold Part000.nextPage. rewrite Ha.
  apply Z.leb_gt in Hlt. rewrite Hlt. simpl.
  by destruct (querySelector_data_page _ _).
Qed.

(** * The indicator *)

Lemma updateDisplay_frame s :
  controller (Script.updateDisplay s) = controller s
  ∧ pageStack (Script.updateDisplay s) = pageStack s
  ∧ timers (Script.updateDisplay s) = timers s.
Proof. unfold Script.updateDisplay. by repeat case_match. Qed.

Lemma part000_updateDisplay_frame s :
  controller (Part000.updateDisplay s) = controller s
  ∧ pageStack (Part000.updateDisplay s) = pageStack s
  ∧ timers (Part000.updateDisplay s) = timers s.
Proof. unfold Part000.updateDisplay. by repeat case_match. Qed.

Lemma part000_updateDisplay_span s :
  currentPageSpan (Part000.updateDisplay s) = currentPageSpan (Script.updateDisplay s).
Proof. unfold Part000.updateDisplay, Script.updateDisplay. by repeat case_match. Qed.

(** C6. [updateDisplay] writes a label that depends on [currentPage] and
    [totalPages] only: "Cover" at 0, "Page k" for k between 1 and
    [totalPages], "End" above [totalPages]; it leaves the controller's
    fields, the page stack and the pending timers as they were.  Both
    variants write the same label. *)
Theorem updateDisplay_projection s :
  0 ≤ totalPages s →
  let s' := Script.updateDisplay s in
  (currentPage s = 0 → currentPageSpan s' = "Cover")
  ∧ (1 ≤ currentPage s ≤ totalPages s →
     currentPageSpan s' = "Page " +:+ string_of_Z (currentPage s))
  ∧ (totalPages s < currentPage s → currentPageSpan s' = "End")
  ∧ controller s' = controller s
  ∧ pageStack s' = pageStack s
  ∧ timers s' = timers s
  ∧ currentPageSpan (Part000.updateDisplay s) = currentPageSpan s'
  ∧ controller (Part000.updateDisplay s) = controller s.
Proof.
  intros HN s'.
  destruct (updateDisplay_frame s) as (Hc & Hp & Ht).
  destruct (part000_updateDisplay_frame s) as (Hc' & _ & _).
  pose proof (part000_updateDisplay_span s) as Hs.
  repeat split; try done; subst s'; unfold Script.updateDisplay.
  - intros ->. done.
  - intros [H1 H2].
    destruct (Z.eqb_spec (currentPage s) 0); [lia|].
    destruct (Z.ltb_spec (totalPages s) (currentPage s)); [lia|done].
  - intros H.
    destruct (Z.eqb_spec (currentPage s) 0); [lia|].
    destruct (Z.ltb_spec (totalPages s) (currentPage s)); [done|lia].
Qed.

Lemma updateDisplay_projection_witness :
  let s := set_currentPage 3 (Script.NotebookController ∅ book) in
  0 ≤ totalPages s ∧ 1 ≤ currentPage s ≤ totalPages s
  ∧ currentPageSpan (Script.updateDisplay s) = "Page 3".
Proof.
  intros s.
  assert (H0 : 0 ≤ totalPages s) by (vm_compute; discriminate).
  assert (H1 : 1 ≤ currentPage s ≤ totalPages s) by (vm_compute; split; discriminate).
  split; [exact H0|]. split; [exact H1|].
  exact (proj1 (proj2 (updateDisplay_projection s H0)) H1).
Defined.

Example indicator_cover :
  currentPageSpan (Script.updateDisplay (set_currentPage 0 (Script.initializeElements ∅ book))) = "Cover".
Proof. reflexivity. Qed.

Example indicator_page_3_of_4 :
  currentPageSpan (Script.updateDisplay (set_currentPage 3 (Script.initializeElements ∅ book))) = "Page 3".
Proof. reflexivity. Qed.

Example indicator_end :
  currentPageSpan (Script.updateDisplay (set_currentPage 5 (Script.initializeElements ∅ book))) = "End".
Proof. reflexivity. Qed.

(** * Loops over [this.pages] touch the page stack only *)

Lemma for_pages_pageStack f s :
  for_pages f s
  = set_pageStack (fold_left (λ ps el, alter f el ps) (pages s) (pageStack s)) s.
Proof.
  unfold for_pages. generalize (pages s). intros l.
  revert s. induction l as [|el l IH]; intros s; simpl.
  - by destruct s.
  - by rewrite IH.
Qed.

Lemma openNotebook_accepts s :
  isAnimating s = false → isOpened s = false →
  controller (Script.openNotebook s) = (1, totalPages s, true, true)
  ∧ timers (Script.openNotebook s) = timers s ++ [(500, OpenDone)].
Proof.
  intros Ha Ho. unfold Script.openNotebook, Script.initializePageStates.
  rewrite Ha, Ho. simpl. by rewrite for_pages_pageStack.
Qed.

Lemma part000_openNotebook_accepts s :
  isAnimating s = false → isOpened s = false →
  controller (Part000.openNotebook s) = (1, totalPages s, true, true)
  ∧ timers (Part000.openNotebook s) = timers s ++ [(1000, OpenDone)].
Proof.
  intros Ha Ho. unfold Part000.openNotebook, Part000.initializePageStates.
  rewrite Ha, Ho. simpl. by rewrite for_pages_pageStack.
Qed.

(** * Opening twice *)

(** C7. A second [openNotebook] right after the first, and any
    [openNotebook] on a notebook that is animating or already opened,
    returns the state it was given. *)
Theorem openNotebook_second_call_noop s :
  Script.openNotebook (Script.openNotebook s) = Script.openNotebook s
  ∧ (isAnimating s = true ∨ isOpened s = true → Script.openNotebook s = s).
Proof.
  split; [|apply openNotebook_guard].
  destruct (isAnimating s) eqn:Ha.
  { assert (E : Script.openNotebook s = s) by (apply openNotebook_guard; auto).
    by rewrite !E. }
  destruct (isOpened s) eqn:Ho.
  { assert (E : Script.openNotebook s = s) by (apply openNotebook_guard; auto).
    by rewrite !E. }
  apply openNotebook_guard. left.
  destruct (openNotebook_accepts s Ha Ho) as [Hc _].
  by inversion Hc.
Qed.

Lemma openNotebook_second_call_noop_witness :
  let s := Script.openNotebook (Script.NotebookController ∅ book) in
  (isAnimating s = true ∨ isOpened s = true) ∧ Script.openNotebook s = s.
Proof.
  intros s.
  assert (H : isAnimating s = true ∨ isOpened s = true) by (left; reflexivity).
  split; [exact H|].
  exact (proj2 (openNotebook_second_call_noop s) H).
Defined.

(** * What [nextPage] checks *)

(** On the closed notebook [nextPage] takes the animation lock. *)
Lemma nextPage_ignores_isOpened :
  ¬ advance_noop_unless_opened (Script.NotebookController ∅ book).
Proof.
  intros H.
  assert (E : Script.nextPage (Script.NotebookController ∅ book)
              = Script.NotebookController ∅ book).
  { apply H. intros [Ho _]. vm_compute in Ho. discriminate. }
  apply (f_equal isAnimating) in E. vm_compute in E. discriminate.
Qed.

(** The listeners of [src/script.js] that lead to [nextPage] read
    [isOpened] first: on a closed notebook a key, a page click and a swipe
    change nothing, and a click on the notebook opens it or changes
    nothing. *)
Lemma listeners_read_isOpened s :
  isOpened s = false →
  (∀ key, Script.keydown key s = s)
  ∧ Script.page_click s = s
  ∧ (∀ c x l w, Script.notebook_click c x l w s
                = if c then s else Script.openNotebook s)
  ∧ (∀ t x y, (Script.touchend x y (t, s)).2 = s).
Proof.
  intros Ho. split_and!.
  - intros key. unfold Script.keydown. by rewrite Ho.
  - unfold Script.page_click. by rewrite Ho.
  - intros c x l w. unfold Script.notebook_click. rewrite Ho. by destruct c.
  - intros t x y. unfold Script.touchend. rewrite Ho. simpl.
    by repeat case_match.
Qed.

(** C3, at the failing input.  The notebook is closed, on the cover, on
    the usual four-page document, and nothing is animating: a state in
    which the claim makes [nextPage] a no-op.  [nextPage] does not read
    [isOpened]: it takes the lock, finds no element tagged 0, queues no
    timer and returns with the lock held, after which [openNotebook] is
    refused.  The listeners of [src/script.js] never call it there, they
    read [isOpened] first; the next button of the other variant calls it
    unconditionally. *)
Theorem nextPage_on_closed_notebook :
  let s := Script.NotebookController ∅ book in
  let p := Part000.NotebookController ∅ book in
  (controller s = (0, 4, false, false) ∧ timers s = [])
  ∧ ¬ advance_noop_unless_opened s
  ∧ (controller (Script.nextPage s) = (0, 4, false, true)
     ∧ timers (Script.nextPage s) = []
     ∧ Script.openNotebook (Script.nextPage s) = Script.nextPage s)
  ∧ (Script.keydown "ArrowRight" s = s ∧ Script.page_click s = s)
  ∧ (controller (Part000.nextBtn_click p) = (0, 4, false, true)
     ∧ Part000.nextBtn_click p ≠ p).
Proof.
  intros s p. split_and!; try (vm_compute; reflexivity).
  - apply nextPage_ignores_isOpened.
  - intros E. apply (f_equal isAnimating) in E. vm_compute in E. discriminate.
Qed.

(** * Element look-up *)

(** No method writes a [data-page] attribute, and the look-up reads
    nothing else. *)
Lemma querySelector_data_page_tags n s s' :
  dataPage <$> pageStack s = dataPage <$> pageStack s' →
  querySelector_data_page n s = querySelector_data_page n s'.
Proof.
  intros E.
  assert (Q : ∀ st, querySelector_data_page n st
    = fst <$> list_find (λ o, o = Some (string_of_Z n)) (dataPage <$> pageStack st)).
  { intros st. unfold querySelector_data_page. rewrite list_find_fmap.
    by destruct (list_find _ (pageStack st)) as [[i x]|]. }
  by rewrite !Q, E.
Qed.

Lemma dataPage_alter f el (l : list element) :
  (∀ e, dataPage (f e) = dataPage e) →
  dataPage <$> alter f el l = dataPage <$> l.
Proof.
  intros Hf. rewrite (list_fmap_alter dataPage f id).
  - by apply list_alter_id.
  - apply Forall_true. intros e. apply Hf.
Qed.

Lemma querySelector_data_page_Some n s el :
  querySelector_data_page n s = Some el →
  ∃ e, pageStack s !! el = Some e ∧ dataPage e = Some (string_of_Z n).
Proof.
  unfold querySelector_data_page. intros H.
  destruct (list_find _ (pageStack s)) as [[i e]|] eqn:F; [|done].
  simpl in H. injection H as <-.
  apply list_find_Some in F as (Hl & Hd & _). eauto.
Qed.

(** * Turning a page forward *)

Lemma nextPage_accepts s el :
  isAnimating s = false → currentPage s < totalPages s →
  querySelector_data_page (currentPage s) s = Some el →
  Script.nextPage s
  = setTimeout (NextDone el) 600
      (on_element el (classList_add "turning") (set_isAnimating true s)).
Proof.
  intros Ha Hlt Hq. unfold Script.nextPage. rewrite Ha.
  apply Z.leb_gt in Hlt. rewrite Hlt. simpl.
  change (querySelector_data_page (currentPage s) (set_isAnimating true s))
    with (querySelector_data_page (currentPage s) s).
  by rewrite Hq.
Qed.

(** The completion callback of [nextPage], field by field. *)
Lemma run_NextDone s el :
  let s' := Script.run_callback (NextDone el) s in
  let last := totalPages s <? currentPage s + 1 in
  currentPage s' = (if last then totalPages s + 1 else currentPage s + 1)
  ∧ totalPages s' = totalPages s
  ∧ isOpened s' = isOpened s
  ∧ isAnimating s' = false
  ∧ timers s' = timers s
  ∧ pageStack s'
    = (if last then alter (classList_add "hidden") el else id)
        (alter (classList_add "turned") el
           (alter (classList_remove ["turning"]) el (pageStack s))).
Proof.
  destruct s. unfold Script.run_callback, Script.updateDisplay.
  cbn. by repeat case_match.
Qed.

(** Firing the timer a request has just queued. *)
Lemma fire_last s0 d cb s :
  timers s = timers s0 ++ [(d, cb)] →
  Script.fire (length (timers s0)) s
  = Script.run_callback cb (set_timers (timers s0) s).
Proof.
  intros E. unfold Script.fire. rewrite E.
  rewrite list_lookup_middle by done.
  by rewrite delete_middle, app_nil_r.
Qed.

(** The classes of an element once its forward turn has completed. *)
Lemma turned_element e :
  let e2 := classList_add "turned"
              (classList_remove ["turning"] (classList_add "turning" e)) in
  "turned" ∈ classList e2 ∧ ("turning" ∉ classList e2)
  ∧ ("hidden" ∈ classList e2 ↔ "hidden" ∈ classList e)
  ∧ transform e2 = transform e.
Proof. simpl. split_and!; set_solver. Qed.

(** C4. When [nextPage] is accepted on page [k < totalPages] and its timer
    fires, the controller is on page [k + 1] with the lock released, and
    the element of page [k] carries "turned", no longer "turning", and
    "hidden" only if it carried it before.  The completion callback adds
    "hidden" exactly when it runs on the last page, [k = totalPages], and
    the controller is then at [totalPages + 1]. *)
Theorem nextPage_completion s el e k :
  isAnimating s = false →
  currentPage s = k → k < totalPages s →
  querySelector_data_page k s = Some el →
  pageStack s !! el = Some e →
  let s1 := Script.nextPage s in
  let s2 := Script.fire (length (timers s)) s1 in
  (controller s1 = (k, totalPages s, isOpened s, true)
   ∧ timers s1 = timers s ++ [(600, NextDone el)]
   ∧ pageStack s1 !! el = Some (classList_add "turning" e))
  ∧ (controller s2 = (k + 1, totalPages s, isOpened s, false)
     ∧ timers s2 = timers s
     ∧ ∃ e2, pageStack s2 !! el = Some e2
         ∧ "turned" ∈ classList e2 ∧ ("turning" ∉ classList e2)
         ∧ ("hidden" ∈ classList e2 ↔ "hidden" ∈ classList e)
         ∧ transform e2 = transform e)
  ∧ (∀ s' e', currentPage s' ≤ totalPages s' → pageStack s' !! el = Some e' →
       "hidden" ∉ classList e' →
       let s'' := Script.run_callback (NextDone el) s' in
       ∃ e'', pageStack s'' !! el = Some e''
         ∧ "turned" ∈ classList e''
         ∧ ("hidden" ∈ classList e'' ↔ currentPage s' = totalPages s')
         ∧ currentPage s'' = currentPage s' + 1).
Proof.
  intros Ha Hk Hlt Hq He s1 s2. subst k.
  assert (E1 : s1 = setTimeout (NextDone el) 600
      (on_element el (classList_add "turning") (set_isAnimating true s)))
    by (apply nextPage_accepts; done).
  assert (T1 : timers s1 = timers s ++ [(600, NextDone el)]) by by rewrite E1.
  split; [|split].
  - rewrite E1. simpl. repeat split.
    by rewrite list_lookup_alter_eq, He.
  - subst s2. rewrite (fire_last s 600 (NextDone el) s1 T1).
    destruct (run_NextDone (set_timers (timers s) s1) el)
      as (Hc & Hn & Ho & Hl & Ht & Hp).
    unfold controller. rewrite Hc, Hn, Ho, Hl, Ht, Hp, E1. simpl.
    destruct (Z.ltb_spec (totalPages s) (currentPage s + 1)); [lia|].
    split_and!; try reflexivity. simpl.
    rewrite !list_lookup_alter_eq, He. simpl. eexists; split; [reflexivity|].
    apply turned_element.
  - intros s' e' Hle He' Hh s''. subst s''.
    destruct (run_NextDone s' el) as (Hc & _ & _ & _ & _ & Hp).
    rewrite Hp, Hc.
    destruct (Z.ltb_spec (totalPages s') (currentPage s' + 1)); simpl.
    + rewrite !list_lookup_alter_eq, He'. simpl. eexists; split; [done|].
      simpl. repeat split; try set_solver; lia.
    + rewrite !list_lookup_alter_eq, He'. simpl. eexists; split; [done|].
      simpl. repeat split; try set_solver; try lia.
Qed.

Lemma nextPage_completion_witness :
  let s := Script.run [Open; Fire 0%nat] (Script.NotebookController ∅ book) in
  controller s = (1, 4, true, false)
  ∧ controller (Script.fire (length (timers s)) (Script.nextPage s)) = (2, 4, true, false).
Proof.
  intros s. split; [reflexivity|].
  destruct (nextPage_completion s 0%nat (page_right 1) 1) as (_ & (H & _) & _);
    [vm_compute; reflexivity..|].
  exact H.
Defined.

(** * Turning a page back *)

Lemma previousPage_accepts s el e :
  isAnimating s = false → 1 < currentPage s →
  querySelector_data_page (currentPage s - 1) s = Some el →
  pageStack s !! el = Some e →
  let s' := on_element el (classList_remove ["hidden"])
              (set_currentPage (currentPage s - 1) (set_isAnimating true s)) in
  Script.previousPage s
  = if classList_contains "turned" e
    then setTimeout (PrevStart el) 50
           (on_element el (set_transform "rotateY(-180deg)") s')
    else Script.updateDisplay (set_isAnimating false s').
Proof.
  intros Ha Hlt Hq He. unfold Script.previousPage. rewrite Ha.
  apply Z.leb_gt in Hlt. rewrite Hlt. simpl.
  change (querySelector_data_page (currentPage s - 1)
            (set_currentPage (currentPage s - 1) (set_isAnimating true s)))
    with (querySelector_data_page (currentPage s - 1) s).
  rewrite Hq. rewrite list_lookup_alter_eq, He. simpl.
  unfold classList_contains. simpl.
  assert (E : bool_decide ("turned" ∈ classList e ∖ ({["hidden"]} ∪ ∅))
              = bool_decide ("turned" ∈ classList e)).
  { apply bool_decide_ext. set_solver. }
  rewrite E. by destruct (bool_decide _).
Qed.

(** The two callbacks of the reverse animation, field by field. *)
Lemma run_PrevStart s el :
  let s' := Script.run_callback (PrevStart el) s in
  currentPage s' = currentPage s
  ∧ totalPages s' = totalPages s
  ∧ isOpened s' = isOpened s
  ∧ isAnimating s' = isAnimating s
  ∧ timers s' = timers s ++ [(600, PrevDone el)]
  ∧ pageStack s'
    = alter (set_transform "") el (alter (classList_add "turning") el (pageStack s)).
Proof. by destruct s. Qed.

Lemma run_PrevDone s el :
  let s' := Script.run_callback (PrevDone el) s in
  currentPage s' = currentPage s
  ∧ totalPages s' = totalPages s
  ∧ isOpened s' = isOpened s
  ∧ isAnimating s' = false
  ∧ timers s' = timers s
  ∧ pageStack s' = alter (classList_remove ["turning"; "turned"]) el (pageStack s).
Proof.
  destruct s. unfold Script.run_callback, Script.updateDisplay.
  cbn. by repeat case_match.
Qed.

Lemma run_OpenDone s :
  let s' := Script.run_callback OpenDone s in
  currentPage s' = currentPage s
  ∧ totalPages s' = totalPages s
  ∧ isOpened s' = isOpened s
  ∧ isAnimating s' = false
  ∧ timers s' = timers s
  ∧ pageStack s' = pageStack s.
Proof.
  destruct s. unfold Script.run_callback, Script.updateDisplay.
  cbn. by repeat case_match.
Qed.

(** C5. [previousPage] returns its argument when the notebook is animating
    or [currentPage <= 1].  Otherwise it lowers [currentPage] by one at
    once.  If the element of the page it returns to carries "turned", the
    lock stays held while the two timers run, and when the second has
    fired that element is back in its initial presentation and the lock
    is released; if it does not carry "turned", the lock is released
    within the call and no timer is queued. *)
Theorem previousPage_restores_turned_page s el e :
  isAnimating s = false → 1 < currentPage s →
  querySelector_data_page (currentPage s - 1) s = Some el →
  pageStack s !! el = Some e →
  let s1 := Script.previousPage s in
  let s2 := Script.fire (length (timers s)) s1 in
  let s3 := Script.fire (length (timers s)) s2 in
  currentPage s1 = currentPage s - 1
  ∧ ("turned" ∈ classList e →
       (isAnimating s1 = true ∧ timers s1 = timers s ++ [(50, PrevStart el)])
       ∧ (isAnimating s2 = true ∧ currentPage s2 = currentPage s - 1
          ∧ timers s2 = timers s ++ [(600, PrevDone el)])
       ∧ (isAnimating s3 = false ∧ currentPage s3 = currentPage s - 1
          ∧ timers s3 = timers s
          ∧ ∃ e3, pageStack s3 !! el = Some e3 ∧ initial_presentation e3))
  ∧ ("turned" ∉ classList e →
       isAnimating s1 = false ∧ timers s1 = timers s
       ∧ pageStack s1 !! el = Some (classList_remove ["hidden"] e))
  ∧ (∀ s', isAnimating s' = true ∨ currentPage s' ≤ 1 → Script.previousPage s' = s').
Proof.
  intros Ha Hlt Hq He s1 s2 s3.
  pose proof (previousPage_accepts s el e Ha Hlt Hq He) as E1. fold s1 in E1.
  simpl in E1. unfold classList_contains in E1.
  split; [|split; [|split]].
  - rewrite E1. destruct (bool_decide _); [done|].
    by destruct (updateDisplay_frame
      (set_isAnimating false
         (on_element el (classList_remove ["hidden"])
            (set_currentPage (currentPage s - 1) (set_isAnimating true s)))))
      as (Hc & _); injection Hc.
  - intros Hin. rewrite bool_decide_eq_true_2 in E1 by done.
    assert (T1 : timers s1 = timers s ++ [(50, PrevStart el)]) by by rewrite E1.
    split; [by rewrite E1|].
    destruct (run_PrevStart (set_timers (timers s) s1) el)
      as (Hc2 & _ & _ & Hl2 & Ht2 & Hp2).
    assert (E2 : s2 = Script.run_callback (PrevStart el) (set_timers (timers s) s1))
      by (apply (fire_last s 50); done).
    rewrite <- E2 in Hc2, Hl2, Ht2, Hp2. simpl in Ht2.
    split; [rewrite Hl2, Hc2, Ht2, E1; done|].
    destruct (run_PrevDone (set_timers (timers s) s2) el)
      as (Hc3 & _ & _ & Hl3 & Ht3 & Hp3).
    assert (E3 : s3 = Script.run_callback (PrevDone el) (set_timers (timers s) s2))
      by (apply (fire_last s 600); done).
    rewrite <- E3 in Hc3, Hl3, Ht3, Hp3.
    rewrite Hl3, Hc3, Ht3, Hp3. simpl. rewrite Hc2, Hp2, E1. simpl.
    repeat split.
    rewrite !list_lookup_alter_eq, He. simpl. eexists; split; [done|].
    unfold initial_presentation. simpl. repeat split; set_solver.
  - intros Hnin. rewrite bool_decide_eq_false_2 in E1 by done.
    destruct (updateDisplay_frame
      (set_isAnimating false
         (on_element el (classList_remove ["hidden"])
            (set_currentPage (currentPage s - 1) (set_isAnimating true s)))))
      as (Hc & Hp & Ht).
    rewrite <- E1 in Hc, Hp, Ht. rewrite Hp, Ht. injection Hc as _ _ _ ->.
    repeat split. simpl. by rewrite list_lookup_alter_eq, He.
  - apply previousPage_guard.
Qed.

Lemma previousPage_restores_turned_page_witness :
  let s := Script.run [Open; Fire 0%nat; Advance; Fire 0%nat]
             (Script.NotebookController ∅ book) in
  let e := Element (Some "1") {[ "turned"; "page-right" ]} "" in
  (isAnimating s = false ∧ 1 < currentPage s
   ∧ querySelector_data_page (currentPage s - 1) s = Some 0%nat
   ∧ pageStack s !! 0%nat = Some e ∧ "turned" ∈ classList e)
  ∧ currentPage (Script.previousPage s) = 1
  ∧ isAnimating (Script.fire 0 (Script.fire 0 (Script.previousPage s))) = false.
Proof.
  intros s e.
  assert (Ha : isAnimating s = false) by reflexivity.
  assert (Hc : 1 < currentPage s) by reflexivity.
  assert (Hq : querySelector_data_page (currentPage s - 1) s = Some 0%nat)
    by (vm_compute; reflexivity).
  assert (He : pageStack s !! 0%nat = Some e) by (vm_compute; reflexivity).
  assert (Ht : "turned" ∈ classList e) by (subst e; simpl; set_solver).
  split; [exact (conj Ha (conj Hc (conj Hq (conj He Ht))))|].
  destruct (previousPage_restores_turned_page s 0%nat e Ha Hc Hq He)
    as (H1 & H2 & _).
  split; [exact H1|].
  destruct (H2 Ht) as (_ & _ & H3 & _). exact H3.
Defined.

(** * Summaries of the requests, field by field *)

Lemma openNotebook_fields s :
  let s' := Script.openNotebook s in
  totalPages s' = totalPages s
  ∧ dataPage <$> pageStack s' = dataPage <$> pageStack s
  ∧ (currentPage s', isOpened s', isAnimating s', timers s')
    = if isAnimating s || isOpened s
      then (currentPage s, isOpened s, isAnimating s, timers s)
      else (1, true, true, timers s ++ [(500, OpenDone)]).
Proof.
  unfold Script.openNotebook, Script.initializePageStates.
  destruct (isAnimating s || isOpened s); [done|].
  rewrite for_pages_pageStack. simpl. repeat split.
  generalize (pageStack s). induction (pages s) as [|el l IH]; intros ps; [done|].
  simpl. rewrite IH. by apply dataPage_alter.
Qed.

Lemma nextPage_fields s :
  let s' := Script.nextPage s in
  currentPage s' = currentPage s
  ∧ totalPages s' = totalPages s
  ∧ isOpened s' = isOpened s
  ∧ dataPage <$> pageStack s' = dataPage <$> pageStack s
  ∧ (isAnimating s', timers s')
    = if isAnimating s || (totalPages s <=? currentPage s)
      then (isAnimating s, timers s)
      else match querySelector_data_page (currentPage s) s with
           | Some el => (true, timers s ++ [(600, NextDone el)])
           | None => (true, timers s)
           end.
Proof.
  unfold Script.nextPage.
  destruct (isAnimating s || (totalPages s <=? currentPage s)); [done|].
  simpl.
  change (querySelector_data_page (currentPage s) (set_isAnimating true s))
    with (querySelector_data_page (currentPage s) s).
  destruct (querySelector_data_page (currentPage s) s); [|done].
  simpl. repeat split. by apply dataPage_alter.
Qed.

Lemma previousPage_fields s :
  let s' := Script.previousPage s in
  totalPages s' = totalPages s
  ∧ isOpened s' = isOpened s
  ∧ dataPage <$> pageStack s' = dataPage <$> pageStack s
  ∧ if isAnimating s || (currentPage s <=? 1)
    then currentPage s' = currentPage s ∧ isAnimating s' = isAnimating s
         ∧ timers s' = timers s
    else currentPage s' = currentPage s - 1
         ∧ ((isAnimating s' = true ∧ timers s' = timers s
             ∧ querySelector_data_page (currentPage s - 1) s = None)
            ∨ (isAnimating s' = true
               ∧ ∃ el, timers s' = timers s ++ [(50, PrevStart el)])
            ∨ (isAnimating s' = false ∧ timers s' = timers s)).
Proof.
  unfold Script.previousPage.
  destruct (isAnimating s || (currentPage s <=? 1)); [done|].
  simpl.
  change (querySelector_data_page (currentPage s - 1)
            (set_currentPage (currentPage s - 1) (set_isAnimating true s)))
    with (querySelector_data_page (currentPage s - 1) s).
  destruct (querySelector_data_page (currentPage s - 1) s) as [el|]; [|by auto 10].
  set (s0 := on_element el (classList_remove ["hidden"])
               (set_currentPage (currentPage s - 1) (set_isAnimating true s))).
  assert (T : dataPage <$> pageStack s0 = dataPage <$> pageStack s)
    by (by apply dataPage_alter).
  destruct (classList_contains "turned" <$> _ !! el) as [[]|].
  - split; [done|]. split; [done|]. split.
    + etrans; [|exact T]. by apply dataPage_alter.
    + split; [done|]. right. left. split; [done|]. by eexists.
  - destruct (updateDisplay_frame (set_isAnimating false s0)) as (Hc & Hp & Ht).
    injection Hc as Hc HN Ho Ha. rewrite HN, Ho, Hp, Hc, Ha, Ht. auto 10.
  - destruct (updateDisplay_frame (set_isAnimating false s0)) as (Hc & Hp & Ht).
    injection Hc as Hc HN Ho Ha. rewrite HN, Ho, Hp, Hc, Ha, Ht. auto 10.
Qed.

Lemma fire_fields s n :
  let s' := Script.fire n s in
  totalPages s' = totalPages s
  ∧ isOpened s' = isOpened s
  ∧ dataPage <$> pageStack s' = dataPage <$> pageStack s
  ∧ match timers s !! n with
    | None => s' = s
    | Some (_, OpenDone) | Some (_, PrevDone _) =>
        currentPage s' = currentPage s ∧ isAnimating s' = false
        ∧ timers s' = delete n (timers s)
    | Some (_, NextDone _) =>
        currentPage s'
        = (if totalPages s <? currentPage s + 1
           then totalPages s + 1 else currentPage s + 1)
        ∧ isAnimating s' = false
        ∧ timers s' = delete n (timers s)
    | Some (_, PrevStart el) =>
        currentPage s' = currentPage s ∧ isAnimating s' = isAnimating s
        ∧ timers s' = delete n (timers s) ++ [(600, PrevDone el)]
    end.
Proof.
  unfold Script.fire.
  destruct (timers s !! n) as [[d [|el|el|el]]|]; [| | | |done].
  - destruct (run_OpenDone (set_timers (delete n (timers s)) s))
      as (Hc & HN & Ho & Ha & Ht & Hp).
    by rewrite Hc, HN, Ho, Ha, Ht, Hp.
  - destruct (run_NextDone (set_timers (delete n (timers s)) s) el)
      as (Hc & HN & Ho & Ha & Ht & Hp).
    rewrite Hc, HN, Ho, Ha, Ht, Hp. repeat split.
    simpl. destruct (_ <? _); simpl; by rewrite !dataPage_alter.
  - destruct (run_PrevStart (set_timers (delete n (timers s)) s) el)
      as (Hc & HN & Ho & Ha & Ht & Hp).
    rewrite Hc, HN, Ho, Ha, Ht, Hp. repeat split.
    simpl. by rewrite !dataPage_alter.
  - destruct (run_PrevDone (set_timers (delete n (timers s)) s) el)
      as (Hc & HN & Ho & Ha & Ht & Hp).
    rewrite Hc, HN, Ho, Ha, Ht, Hp. repeat split.
    simpl. by rewrite !dataPage_alter.
Qed.

Lemma handleResize_fields s :
  let s' := Script.handleResize s in
  currentPage s' = currentPage s
  ∧ totalPages s' = totalPages s
  ∧ isOpened s' = isOpened s
  ∧ isAnimating s' = false
  ∧ timers s' = timers s.
Proof.
  unfold Script.handleResize. destruct (isAnimating s) eqn:Ha; [|done].
  rewrite for_pages_pageStack.
  match goal with |- context [Script.updateDisplay ?x] =>
    destruct (updateDisplay_frame x) as (Hc & Hp & Ht);
    injection Hc as Hc HN Ho Hl; by rewrite Hc, HN, Ho, Hl, Ht end.
Qed.

(** * The page counter stays in range *)

Lemma step_in_range s e : in_range s → in_range (Script.step s e).
Proof.
  unfold in_range. intros [HN Hc]. destruct e as [| | |n|]; simpl.
  - destruct (openNotebook_fields s) as (EN & _ & E). rewrite EN.
    destruct (isAnimating s || isOpened s); injection E as -> _ _ _; lia.
  - destruct (nextPage_fields s) as (Ec & EN & _). rewrite Ec, EN. lia.
  - destruct (previousPage_fields s) as (EN & _ & _ & E). rewrite EN.
    destruct (isAnimating s) eqn:Ha; simpl in E.
    { destruct E as (-> & _). lia. }
    destruct (Z.leb_spec (currentPage s) 1); destruct E as (-> & _); lia.
  - destruct (fire_fields s n) as (EN & _ & _ & E). rewrite EN.
    destruct (timers s !! n) as [[d [|el|el|el]]|].
    + destruct E as (-> & _). lia.
    + destruct E as (-> & _). destruct (Z.ltb_spec (totalPages s) (currentPage s + 1)); lia.
    + destruct E as (-> & _). lia.
    + destruct E as (-> & _). lia.
    + rewrite E. lia.
  - destruct (handleResize_fields s) as (Ec & EN & _). rewrite Ec, EN. lia.
Qed.

Lemma run_app evs evs' s :
  Script.run (evs ++ evs') s = Script.run evs' (Script.run evs s).
Proof. apply fold_left_app. Qed.

Lemma run_in_range evs s : in_range s → in_range (Script.run evs s).
Proof.
  revert s. induction evs as [|e evs IH]; intros s H; [done|].
  simpl. apply IH. by apply step_in_range.
Qed.

Lemma NotebookController_in_range nb ps : in_range (Script.NotebookController nb ps).
Proof. unfold in_range. simpl. lia. Qed.

(** * One animation at a time *)

Lemma lookup_singleton_inv {A} (t : A) n x : [t] !! n = Some x → n = 0%nat ∧ x = t.
Proof. destruct n as [|n]; simpl; [by intros [= ->]|]. by destruct n. Qed.

Lemma step_single_flight s e :
  request e = true → single_flight s → single_flight (Script.step s e).
Proof.
  unfold single_flight. intros He H. destruct e as [| | |n|]; simpl; [| | | |done].
  - destruct (openNotebook_fields s) as (_ & _ & E).
    destruct (isAnimating s) eqn:Ha; simpl in E.
    { by injection E as _ _ -> ->. }
    destruct H as [Ht | (? & _)]; [|done].
    destruct (isOpened s); injection E as _ _ -> ->; rewrite ?Ha, Ht; eauto.
  - destruct (nextPage_fields s) as (_ & _ & _ & _ & E).
    destruct (isAnimating s) eqn:Ha; simpl in E.
    { by injection E as -> ->. }
    destruct H as [Ht | (? & _)]; [|done].
    destruct (totalPages s <=? currentPage s).
    { injection E as -> ->. auto. }
    destruct (querySelector_data_page _ _); injection E as -> ->; rewrite Ht; eauto.
  - destruct (previousPage_fields s) as (_ & _ & _ & E).
    destruct (isAnimating s) eqn:Ha; simpl in E.
    { by destruct E as (_ & -> & ->). }
    destruct H as [Ht | (? & _)]; [|done].
    destruct (currentPage s <=? 1).
    { destruct E as (_ & -> & ->). auto. }
    destruct E as (_ & [(-> & -> & _) | [(-> & el & ->) | (-> & ->)]]);
      rewrite ?Ht; eauto.
  - destruct (fire_fields s n) as (_ & _ & _ & E).
    destruct H as [Ht | (Ha & t & Ht)].
    { rewrite Ht in E. simpl in E. rewrite E. auto. }
    rewrite Ht in E. destruct ([t] !! n) as [[d cb]|] eqn:L.
    + apply lookup_singleton_inv in L as [-> <-]. simpl in E.
      destruct cb as [|el|el|el]; destruct E as (_ & -> & ->); eauto.
    + rewrite E. eauto.
Qed.

Lemma run_single_flight evs s :
  forallb request evs = true → single_flight s → single_flight (Script.run evs s).
Proof.
  revert s. induction evs as [|e evs IH]; intros s He H; [done|].
  simpl in He. apply andb_true_iff in He as [He1 He2].
  simpl. apply IH; [done|]. by apply step_single_flight.
Qed.

(** While [isAnimating] is true, [openNotebook], [nextPage] and
    [previousPage] return the state they were given. *)
Lemma lock_drops_requests s :
  isAnimating s = true →
  Script.openNotebook s = s ∧ Script.nextPage s = s ∧ Script.previousPage s = s.
Proof.
  intros Ha. split; [|split].
  - apply openNotebook_guard. auto.
  - apply nextPage_guard. auto.
  - apply previousPage_guard. auto.
Qed.

(** Along a trace of requests and timer firings, with no resize, at most
    one timer is pending, and one is pending only while the lock is
    held. *)
Lemma single_flight_without_resize nb ps evs :
  forallb request evs = true →
  let s := Script.run evs (Script.NotebookController nb ps) in
  (length (timers s) ≤ 1)%nat ∧ (timers s ≠ [] → isAnimating s = true).
Proof.
  intros He s.
  assert (H : single_flight s).
  { apply run_single_flight; [done|]. by left. }
  destruct H as [-> | (Ha & t & ->)]; simpl; split; auto.
Qed.

(** C8, at the failing input.  The notebook is opened on page 1 of the
    usual document, [nextPage] has started turning it, and the window is
    resized before the timer fires.  [handleResize] releases the lock
    and leaves the timer queued: the first animation is still in flight
    and the lock is free.  A second [nextPage] is then accepted, on the
    same page, and two completion callbacks are pending at once.  When
    both have fired the controller is on page 3 although the element of
    page 2 was never turned. *)
Theorem resize_admits_second_animation :
  let s := Script.run [Open; Fire 0%nat; Advance; Resize]
             (Script.NotebookController ∅ book) in
  let s' := Script.nextPage s in
  let s'' := Script.run [Fire 0%nat; Fire 0%nat] s' in
  (controller s = (1, 4, true, false) ∧ timers s = [(600, NextDone 0)])
  ∧ (s' ≠ s ∧ isAnimating s' = true
     ∧ timers s' = [(600, NextDone 0); (600, NextDone 0)])
  ∧ (controller s'' = (3, 4, true, false) ∧ timers s'' = []
     ∧ pageStack s'' !! 1%nat = Some (page_right 2)).
Proof.
  intros s s' s''. split_and!; try (vm_compute; reflexivity).
  intros E. apply (f_equal isAnimating) in E. vm_compute in E. discriminate.
Qed.

(** * Unit steps of the page counter *)

Lemma step_unit_inv s e :
  request e = true → unit_inv s →
  unit_inv (Script.step s e)
  ∧ currentPage (Script.step s e) = currentPage s + expected_change s e.
Proof.
  unfold unit_inv. intros He (HN & Hc & Hclosed & Hfl & Hq).
  destruct e as [| | |n|]; simpl; [| | | |done].
  - destruct (openNotebook_fields s) as (EN & Etag & E).
    rewrite (querySelector_data_page_tags 0 _ s Etag), EN.
    destruct (isAnimating s) eqn:Ha; simpl in E |- *.
    { injection E as -> -> -> ->. split_and!; auto; lia. }
    destruct (isOpened s) eqn:Ho; injection E as -> -> -> ->.
    { split_and!; auto; lia. }
    destruct (Hclosed eq_refl) as [Hc0 Ht0]. rewrite Hc0, Ht0.
    split_and!; try done; try lia. right. split; [done|].
    eexists _, _. split; [done|]. done.
  - destruct (nextPage_fields s) as (Ec & EN & Eo & Etag & E).
    rewrite (querySelector_data_page_tags 0 _ s Etag), Ec, EN, Eo.
    destruct (isAnimating s) eqn:Ha; simpl in E.
    { injection E as -> ->. split_and!; auto; lia. }
    destruct Hfl as [Ht | (? & _)]; [|done].
    destruct (Z.leb_spec (totalPages s) (currentPage s)).
    { injection E as -> ->. split_and!; auto; lia. }
    destruct (querySelector_data_page (currentPage s) s) as [el|] eqn:Q;
      injection E as -> ->; rewrite Ht.
    + assert (Ho : isOpened s = true).
      { destruct (isOpened s); [done|]. destruct (Hclosed eq_refl) as [Hc0 _].
        rewrite Hc0 in Q. congruence. }
      split_and!; try lia; try congruence. right. split; [done|].
      eexists _, _. split; [done|]. intros _ _. lia.
    + split_and!; try lia; auto.
      intros Ho. by destruct (Hclosed Ho).
  - destruct (previousPage_fields s) as (EN & Eo & Etag & E).
    rewrite (querySelector_data_page_tags 0 _ s Etag), EN, Eo.
    destruct (isAnimating s) eqn:Ha; simpl in E |- *.
    { destruct E as (-> & -> & ->). split_and!; auto; lia. }
    destruct Hfl as [Ht | (? & _)]; [|done].
    destruct (Z.leb_spec (currentPage s) 1).
    { destruct E as (-> & -> & ->). split_and!; auto; lia. }
    assert (Ho : isOpened s = true).
    { destruct (isOpened s); [done|]. destruct (Hclosed eq_refl). lia. }
    destruct E as (-> & [(-> & -> & _) | [(-> & el & ->) | (-> & ->)]]);
      rewrite ?Ht; split_and!; try lia; try congruence; auto.
    right. split; [done|]. eexists _, _. split; [done|]. intros ? [=].
  - destruct (fire_fields s n) as (EN & Eo & Etag & E).
    rewrite (querySelector_data_page_tags 0 _ s Etag), EN, Eo.
    destruct Hfl as [Ht | (Ha & d & cb & Ht & Hnext)].
    { rewrite Ht in E |- *. simpl in E |- *. rewrite E.
      split_and!; auto; lia. }
    assert (Ho : isOpened s = true).
    { destruct (isOpened s); [done|]. destruct (Hclosed eq_refl). congruence. }
    rewrite Ht in E |- *. destruct ([(d, cb)] !! n) as [[d' cb']|] eqn:L.
    + apply lookup_singleton_inv in L as [-> [= -> ->]]. simpl in E.
      destruct cb as [|el|el|el].
      * destruct E as (-> & -> & ->). split_and!; try lia; try congruence; auto.
      * specialize (Hnext el eq_refl).
        destruct (Z.ltb_spec (totalPages s) (currentPage s + 1)); [lia|].
        destruct E as (-> & -> & ->). split_and!; try lia; try congruence; auto.
      * destruct E as (-> & -> & ->). split_and!; try lia; try congruence.
        right. split; [done|]. eexists _, _. split; [done|]. intros ? [=].
      * destruct E as (-> & -> & ->). split_and!; try lia; try congruence; auto.
    + rewrite E. split_and!; try lia; try congruence.
      right. split; [done|]. eexists _, _. split; [done|]. done.
Qed.

Lemma NotebookController_unit_inv nb ps :
  querySelector_data_page 0 (Script.NotebookController nb ps) = None →
  unit_inv (Script.NotebookController nb ps).
Proof.
  intros Hq. unfold unit_inv. split_and!; try done; auto.
Qed.

Lemma run_unit_inv evs s :
  forallb request evs = true → unit_inv s → unit_inv (Script.run evs s).
Proof.
  revert s. induction evs as [|e evs IH]; intros s He H; [done|].
  simpl in He. apply andb_true_iff in He as [He1 He2].
  simpl. apply IH; [done|]. by apply step_unit_inv.
Qed.

(** C1. Take a fresh controller on a document whose page stack has no
    element tagged 0 (0 is the cover), and any trace of [openNotebook],
    [nextPage], [previousPage] calls and timer firings.  Before and after
    every event [currentPage] lies in [0, totalPages + 1], and every event
    changes it by what [expected_change] says: plus one for an accepted
    [openNotebook], minus one for an accepted [previousPage], plus one
    when the timer of an accepted [nextPage] fires, nothing otherwise. *)
Theorem currentPage_bounded_unit_steps nb ps evs e :
  querySelector_data_page 0 (Script.NotebookController nb ps) = None →
  forallb request (evs ++ [e]) = true →
  let s := Script.run evs (Script.NotebookController nb ps) in
  let s' := Script.step s e in
  0 ≤ currentPage s ≤ totalPages s + 1
  ∧ 0 ≤ currentPage s' ≤ totalPages s' + 1
  ∧ currentPage s' = currentPage s + expected_change s e
  ∧ (expected_change s e = -1 ∨ expected_change s e = 0 ∨ expected_change s e = 1).
Proof.
  intros Hq He s s'.
  rewrite forallb_app in He. apply andb_true_iff in He as [He1 He2].
  simpl in He2. rewrite andb_true_r in He2.
  assert (Hs : unit_inv s).
  { apply run_unit_inv; [done|]. by apply NotebookController_unit_inv. }
  destruct (step_unit_inv s e He2 Hs) as [Hs' Hd]. fold s' in Hs', Hd.
  destruct Hs as (? & ? & _). destruct Hs' as (? & ? & _).
  split_and!; try lia.
  unfold expected_change. repeat case_match; auto.
Qed.

Lemma currentPage_bounded_unit_steps_witness :
  let s := Script.run [Open; Fire 0%nat; Advance] (Script.NotebookController ∅ book) in
  let s' := Script.step s (Fire 0%nat) in
  querySelector_data_page 0 (Script.NotebookController ∅ book) = None
  ∧ currentPage s = 1 ∧ currentPage s' = 2
  ∧ currentPage s' = currentPage s + expected_change s (Fire 0%nat).
Proof.
  intros s s'.
  assert (Hq : querySelector_data_page 0 (Script.NotebookController ∅ book) = None)
    by (vm_compute; reflexivity).
  split; [exact Hq|]. split; [reflexivity|]. split; [reflexivity|].
  exact (proj1 (proj2 (proj2
    (currentPage_bounded_unit_steps ∅ book [Open; Fire 0%nat; Advance] (Fire 0%nat)
       Hq eq_refl)))).
Defined.

(** With window resizes in the trace the range still holds, on any
    document, but the unit steps do not: a resize releases the lock
    while the timer stays queued, a second [nextPage] queues another,
    and both fire. *)
Lemma currentPage_in_range_with_resize nb ps evs :
  let s := Script.run evs (Script.NotebookController nb ps) in
  0 ≤ currentPage s ≤ totalPages s + 1.
Proof.
  intros s.
  by destruct (run_in_range evs _ (NotebookController_in_range nb ps)) as [_ H].
Qed.

Example resize_leaves_timer_queued :
  let s := Script.run [Open; Fire 0%nat; Advance; Resize; Advance]
             (Script.NotebookController ∅ book) in
  timers s = [(600, NextDone 0); (600, NextDone 0)]
  ∧ currentPage (Script.run [Fire 0%nat; Fire 0%nat] s) = 3.
Proof. split; reflexivity. Qed.

(** * A page that is not in the document *)

Lemma nextPage_missing_element s :
  isAnimating s = false → currentPage s < totalPages s →
  querySelector_data_page (currentPage s) s = None →
  Script.nextPage s = set_isAnimating true s.
Proof.
  intros Ha Hlt Hq. unfold Script.nextPage. rewrite Ha.
  apply Z.leb_gt in Hlt. rewrite Hlt. simpl.
  change (querySelector_data_page (currentPage s) (set_isAnimating true s))
    with (querySelector_data_page (currentPage s) s).
  by rewrite Hq.
Qed.

Lemma previousPage_missing_element s :
  isAnimating s = false → 1 < currentPage s →
  querySelector_data_page (currentPage s - 1) s = None →
  Script.previousPage s = set_currentPage (currentPage s - 1) (set_isAnimating true s).
Proof.
  intros Ha Hlt Hq. unfold Script.previousPage. rewrite Ha.
  apply Z.leb_gt in Hlt. rewrite Hlt. simpl.
  change (querySelector_data_page (currentPage s - 1)
            (set_currentPage (currentPage s - 1) (set_isAnimating true s)))
    with (querySelector_data_page (currentPage s - 1) s).
  by rewrite Hq.
Qed.

(** C2, at the failing input.  On an opened notebook showing page 1, with
    no element tagged 1 in the page stack, [nextPage] is not a no-op: it
    takes the lock, queues no timer, and from then on every request is
    dropped.  In the button-based variant the same happens on the usual
    document when the next button is clicked before the notebook is
    opened: no element is tagged 0, the lock stays held and the open
    button does nothing. *)
Theorem nextPage_missing_element_holds_lock :
  let s := Script.run [Open; Fire 0%nat] (Script.NotebookController ∅ torn_book) in
  let s' := Script.nextPage s in
  let p := Part000.nextBtn_click (Part000.NotebookController ∅ book) in
  (controller s = (1, 4, true, false) ∧ timers s = []
   ∧ querySelector_data_page 1 s = None)
  ∧ (controller s' = (1, 4, true, true) ∧ timers s' = [] ∧ s' ≠ s)
  ∧ (Script.nextPage s' = s' ∧ Script.previousPage s' = s'
     ∧ Script.openNotebook s' = s')
  ∧ (controller p = (0, 4, false, true) ∧ timers p = []
     ∧ Part000.openBtn_click p = p).
Proof.
  intros s s' p. split_and!; try (vm_compute; reflexivity).
  intros E. apply (f_equal isAnimating) in E. vm_compute in E. discriminate.
Qed.

(** * Swipes *)

(** What [touchend] does after a [touchstart] away from the left and top
    edges, on an opened notebook that is not animating. *)
Lemma touchend_navigates x0 y0 x1 y1 s :
  x0 ≠ 0 → y0 ≠ 0 → isOpened s = true → isAnimating s = false →
  Script.touchend x1 y1 (Script.touchstart x0 y0 (Touch None None), s)
  = (Touch None None,
     if (Z.abs (y0 - y1) <? Z.abs (x0 - x1)) && (50 <? Z.abs (x0 - x1))
     then if 0 <? x0 - x1 then Script.nextPage s else Script.previousPage s
     else s).
Proof.
  intros Hx Hy Ho Ha. unfold Script.touchend, Script.touchstart, falsy. simpl.
  apply Z.eqb_neq in Hx, Hy. by rewrite Hx, Hy, Ho, Ha.
Qed.

Example swipe_60_10_advances :
  let s := Script.run [Open; Fire 0%nat] (Script.NotebookController ∅ book) in
  (Script.touchend 140 110 (Script.touchstart 200 100 (Touch None None), s)).2
  = Script.nextPage s.
Proof. vm_compute. reflexivity. Qed.

Example swipe_40_ignored :
  let s := Script.run [Open; Fire 0%nat] (Script.NotebookController ∅ book) in
  (Script.touchend 160 100 (Script.touchstart 200 100 (Touch None None), s)).2 = s.
Proof. vm_compute. reflexivity. Qed.

(** C9, at the failing input.  The notebook is opened on page 2 and not
    animating.  A swipe to the right of 60 units with no vertical
    movement calls [previousPage] when it starts at x = 1, and is ignored
    when it starts at x = 0, the left edge: [!startX] is true for 0 as it
    is for [null], the handler returns before it looks at the
    displacement, and the recorded start is not cleared.  The same holds
    for a start at y = 0, and in both variants. *)
Theorem touchend_ignores_swipe_from_edge :
  let s := Script.run [Open; Fire 0%nat; Advance; Fire 0%nat]
             (Script.NotebookController ∅ book) in
  let p := Part000.run [Open; Fire 0%nat; Advance; Fire 0%nat]
             (Part000.NotebookController ∅ book) in
  (controller s = (2, 4, true, false) ∧ Script.previousPage s ≠ s)
  ∧ Script.touchend 61 100 (Script.touchstart 1 100 (Touch None None), s)
    = (Touch None None, Script.previousPage s)
  ∧ Script.touchend 60 100 (Script.touchstart 0 100 (Touch None None), s)
    = (Touch (Some 0) (Some 100), s)
  ∧ Script.touchend 160 0 (Script.touchstart 100 0 (Touch None None), s)
    = (Touch (Some 100) (Some 0), s)
  ∧ Part000.touchend 60 100 (Part000.touchstart 0 100 (Touch None None), p)
    = (Touch (Some 0) (Some 100), p).
Proof.
  intros s p. split_and!; try (vm_compute; reflexivity).
  intros E. apply (f_equal currentPage) in E. vm_compute in E. discriminate.
Qed.

(** * The two variants *)

Lemma core_inv s1 s2 :
  core s1 = core s2 →
  ∃ cp N o a nb ps pg sp tsp b1 b2 b1' b2' t1 t2,
    s1 = State cp N o a nb ps pg sp tsp b1 b2 t1
    ∧ s2 = State cp N o a nb ps pg sp tsp b1' b2' t2
    ∧ t1.*2 = t2.*2.
Proof.
  destruct s1, s2. unfold core, controller. simpl. intros [= -> -> -> -> -> -> -> -> -> E].
  by eexists _, _, _, _, _, _, _, _, _, _, _, _, _, _, _.
Qed.

Lemma core_timers s1 s2 : core s1 = core s2 → (timers s1).*2 = (timers s2).*2.
Proof. by intros [= ]. Qed.

Lemma core_build s1 s2 :
  controller s1 = controller s2 → notebook s1 = notebook s2 →
  pageStack s1 = pageStack s2 → pages s1 = pages s2 →
  currentPageSpan s1 = currentPageSpan s2 → totalPagesSpan s1 = totalPagesSpan s2 →
  (timers s1).*2 = (timers s2).*2 →
  core s1 = core s2.
Proof. unfold core. by intros -> -> -> -> -> -> ->. Qed.

Lemma core_updateDisplay s1 s2 :
  core s1 = core s2 → core (Script.updateDisplay s1) = core (Part000.updateDisplay s2).
Proof.
  intros (cp & N & o & a & nb & ps & pg & sp & tsp & b1 & b2 & b1' & b2' & t1 & t2
          & -> & -> & E)%core_inv.
  unfold Script.updateDisplay, Part000.updateDisplay, core, controller. simpl.
  repeat case_match; simpl; by rewrite E.
Qed.

Lemma core_for_pages f s1 s2 :
  core s1 = core s2 → core (for_pages f s1) = core (for_pages f s2).
Proof.
  intros (cp & N & o & a & nb & ps & pg & sp & tsp & b1 & b2 & b1' & b2' & t1 & t2
          & -> & -> & E)%core_inv.
  rewrite !for_pages_pageStack. unfold core, controller. simpl. by rewrite E.
Qed.

Lemma core_run_callback cb s1 s2 :
  core s1 = core s2 →
  core (Script.run_callback cb s1) = core (Part000.run_callback cb s2).
Proof.
  intros H. destruct cb as [|el|el|el]; simpl.
  - apply core_updateDisplay.
    apply core_inv in H as (cp & N & o & a & nb & ps & pg & sp & tsp & b1 & b2
      & b1' & b2' & t1 & t2 & -> & -> & E).
    unfold core, controller. simpl. by rewrite E.
  - apply core_updateDisplay.
    apply core_inv in H as (cp & N & o & a & nb & ps & pg & sp & tsp & b1 & b2
      & b1' & b2' & t1 & t2 & -> & -> & E).
    unfold core, controller. simpl. destruct (N <? cp + 1); simpl; by rewrite E.
  - apply core_inv in H as (cp & N & o & a & nb & ps & pg & sp & tsp & b1 & b2
      & b1' & b2' & t1 & t2 & -> & -> & E).
    unfold core, controller. simpl. by rewrite !fmap_app, E.
  - apply core_updateDisplay.
    apply core_inv in H as (cp & N & o & a & nb & ps & pg & sp & tsp & b1 & b2
      & b1' & b2' & t1 & t2 & -> & -> & E).
    unfold core, controller. simpl. by rewrite E.
Qed.

Ltac core_destruct H :=
  apply core_inv in H as (?cp & ?N & ?o & ?a & ?nb & ?ps & ?pg & ?sp & ?tsp
    & ?b1 & ?b2 & ?b1' & ?b2' & ?t1 & ?t2 & -> & -> & ?E).

Lemma core_openNotebook s1 s2 :
  core s1 = core s2 → core (Script.openNotebook s1) = core (Part000.openNotebook s2).
Proof.
  intros H. core_destruct H.
  unfold Script.openNotebook, Part000.openNotebook,
    Script.initializePageStates, Part000.initializePageStates. simpl.
  destruct (a || o).
  { unfold core, controller. simpl. by rewrite E. }
  rewrite !for_pages_pageStack. unfold core, controller. simpl.
  by rewrite !fmap_app, E.
Qed.

Lemma core_nextPage s1 s2 :
  core s1 = core s2 → core (Script.nextPage s1) = core (Part000.nextPage s2).
Proof.
  intros H. core_destruct H.
  unfold Script.nextPage, Part000.nextPage. simpl.
  destruct (a || (N <=? cp)).
  { unfold core, controller. simpl. by rewrite E. }
  unfold querySelector_data_page. simpl.
  destruct (list_find _ ps) as [[el e]|]; simpl;
    unfold core, controller; simpl; by rewrite ?fmap_app, E.
Qed.

Lemma core_previousPage s1 s2 :
  core s1 = core s2 → core (Script.previousPage s1) = core (Part000.previousPage s2).
Proof.
  intros H. core_destruct H.
  unfold Script.previousPage, Part000.previousPage. simpl.
  destruct (a || (cp <=? 1)).
  { unfold core, controller. simpl. by rewrite E. }
  unfold querySelector_data_page. simpl.
  destruct (list_find _ ps) as [[el e]|]; simpl.
  - destruct (classList_contains "turned" <$> _ !! el) as [[]|].
    + unfold core, controller. simpl. by rewrite !fmap_app, E.
    + apply core_updateDisplay. unfold core, controller. simpl. by rewrite E.
    + apply core_updateDisplay. unfold core, controller. simpl. by rewrite E.
  - unfold core, controller. simpl. by rewrite E.
Qed.

Lemma core_handleResize s1 s2 :
  core s1 = core s2 → core (Script.handleResize s1) = core (Part000.handleResize s2).
Proof.
  intros H. unfold Script.handleResize, Part000.handleResize.
  assert (Ha : isAnimating s1 = isAnimating s2) by by injection H.
  rewrite <- Ha. destruct (isAnimating s1); [|done].
  apply core_updateDisplay.
  apply (core_for_pages (λ page, set_transform "" (classList_remove ["turning"] page)))
    in H.
  core_destruct H. unfold core, controller. simpl. by rewrite E.
Qed.

Lemma core_fire n s1 s2 :
  core s1 = core s2 → core (Script.fire n s1) = core (Part000.fire n s2).
Proof.
  intros H. unfold Script.fire, Part000.fire.
  pose proof (core_timers _ _ H) as T.
  assert (L : snd <$> timers s1 !! n = snd <$> timers s2 !! n)
    by (by rewrite <- !list_lookup_fmap, T).
  destruct (timers s1 !! n) as [[d1 cb1]|], (timers s2 !! n) as [[d2 cb2]|];
    simpl in L; try done.
  injection L as ->. apply core_run_callback.
  assert (D : (delete n (timers s1)).*2 = (delete n (timers s2)).*2)
    by (by rewrite !list_fmap_delete, T).
  core_destruct H. unfold core, controller. simpl in *. by rewrite D.
Qed.

Lemma core_step s1 s2 e :
  core s1 = core s2 → core (Script.step s1 e) = core (Part000.step s2 e).
Proof.
  destruct e; simpl.
  - apply core_openNotebook.
  - apply core_nextPage.
  - apply core_previousPage.
  - apply core_fire.
  - apply core_handleResize.
Qed.

Lemma core_run evs s1 s2 :
  core s1 = core s2 → core (Script.run evs s1) = core (Part000.run evs s2).
Proof.
  revert s1 s2. induction evs as [|e evs IH]; intros s1 s2 H; [done|].
  simpl. apply IH. by apply core_step.
Qed.

(** C10. From states that agree on everything but timer delays and
    button flags, every request, timer firing and resize leads the two
    variants to states that agree in the same way.  So they agree along
    every trace from a fresh controller on the same document: same
    controller fields, same classes and transform on every element, same
    indicator text, same queue of callbacks.  The delays differ: 500 and
    600 ms in [src/script.js], 1000 ms in the other. *)
Theorem variants_agree_up_to_delays :
  (∀ s1 s2 e, core s1 = core s2 → core (Script.step s1 e) = core (Part000.step s2 e))
  ∧ (∀ cb s1 s2, core s1 = core s2 →
       core (Script.run_callback cb s1) = core (Part000.run_callback cb s2))
  ∧ (∀ nb ps evs,
       core (Script.run evs (Script.NotebookController nb ps))
       = core (Part000.run evs (Part000.NotebookController nb ps)))
  ∧ (∀ s, isAnimating s = false → isOpened s = false →
       timers (Script.openNotebook s) = timers s ++ [(500, OpenDone)]
       ∧ timers (Part000.openNotebook s) = timers s ++ [(1000, OpenDone)]).
Proof.
  split_and!.
  - intros s1 s2 e. apply core_step.
  - intros cb s1 s2. apply core_run_callback.
  - intros nb ps evs. by apply core_run.
  - intros s Ha Ho. split.
    + by destruct (openNotebook_accepts s Ha Ho).
    + by destruct (part000_openNotebook_accepts s Ha Ho).
Qed.

Lemma variants_agree_up_to_delays_witness :
  let s := Script.NotebookController ∅ book in
  let p := Part000.NotebookController ∅ book in
  core s = core p
  ∧ core (Script.step s Open) = core (Part000.step p Open)
  ∧ timers (Script.openNotebook s) = [(500, OpenDone)]
  ∧ timers (Part000.openNotebook s) = [(1000, OpenDone)].
Proof.
  intros s p.
  assert (H : core s = core p) by reflexivity.
  split; [exact H|].
  split; [exact (proj1 variants_agree_up_to_delays s p Open H)|].
  exact (proj2 (proj2 (proj2 variants_agree_up_to_delays)) s eq_refl eq_refl).
Defined.
